(** * The eth/63 sub-protocol sender ([trinity/protocol/eth/proto.py])

    A shallow embedding of [ETHProtocol]: its class attributes (name,
    version, command table, command length) and its fourteen sender
    methods.  The codec ([Command.encode]), the transport ([Protocol.send])
    and the logger live outside that file; they are taken as interfaces
    and every theorem holds for all their implementations. *)

From Stdlib Require Import ZArith.
From stdpp Require Import gmap strings list.

Set Warnings "-register-all".

(** ** Python values *)

Definition bytes : Type := list Byte.byte.

(** Arguments, descriptor fields and payloads are Python objects; the
    annotations of the source are not enforced at run time, so every
    sender accepts any value. *)
Inductive pyval :=
| PyNone
| PyBool (b : bool)
| PyInt (z : Z)
| PyBytes (bs : bytes)
| PyStr (s : string)
| PyTuple (xs : list pyval)
| PyList (xs : list pyval)
| PyDict (kvs : gmap string pyval)
| PyObj (cls : string) (fields : list pyval).

(** A dict display [{k1: v1, ..., kn: vn}]: keys are inserted from left
    to right, a later duplicate overwrites an earlier one. *)
Definition dict (items : list (string * pyval)) : gmap string pyval :=
  foldl (λ m kv, <[kv.1 := kv.2]> m) ∅ items.

(** ** Exceptions *)

Record exn := PyExc { exc_class : string; exc_msg : string }.

Inductive result (A : Type) :=
| Ok (a : A)
| Raise (e : exn).
Arguments Ok {A} a.
Arguments Raise {A} e.

(** ** Commands (imported from [.commands]) *)

Inductive Command :=
| Status | NewBlockHashes | Transactions | GetBlockHeaders | BlockHeaders
| GetBlockBodies | BlockBodies | NewBlock | GetNodeData | NodeData
| GetReceipts | Receipts.

(** [C(cmd_id_offset)]: a command object is its class together with the
    offset it was constructed with. *)
Record Cmd := new_cmd { cmd_class : Command; cmd_offset : Z }.

(** ** Request descriptors and chain info (attributes read by the senders) *)

Module NodeDataRequest.
Record t := Build { node_hashes : pyval }.
End NodeDataRequest.

Module HeaderRequest.
Record t := Build {
  block_number_or_hash : pyval;
  max_headers : pyval;
  skip : pyval;
  reverse : pyval }.
End HeaderRequest.

Module BlockBodiesRequest.
Record t := Build { block_hashes : pyval }.
End BlockBodiesRequest.

Module ReceiptsRequest.
Record t := Build { block_hashes : pyval }.
End ReceiptsRequest.

Module ChainInfo.
Record t := Build {
  total_difficulty : pyval;
  block_hash : pyval;
  genesis_hash : pyval }.
End ChainInfo.

(** ** The protocol instance and the world it runs in *)

Record Peer := { network_id : Z }.

(** The fields of [self] that the senders read. *)
Record ProtocolInstance := { peer : Peer; cmd_id_offset : Z }.

(** Calls made to the collaborators, in the order they are made. *)
Inductive call :=
| LogDebug (logger : string) (msg : string) (arg : pyval)
| Encode (cmd : Cmd) (data : pyval)
| Send (header body : bytes).

(** [this] is the instance, [wire] the state of the connection that
    [self.send] writes to, [history] the calls made so far. *)
Record world (T : Type) := World {
  this : ProtocolInstance;
  wire : T;
  history : list call }.
Arguments World {T} this wire history.
Arguments this {T} w.
Arguments wire {T} w.
Arguments history {T} w.

(** ** Collaborator interfaces *)

(** [cmd.encode(data)] returns a (header, body) pair or raises. *)
Class Codec := cmd_encode : Cmd → pyval → result (bytes * bytes).

(** [peer.send(header, body)] writes one frame or raises; either way the
    connection may change. *)
Class Transport (T : Type) := peer_send : T → bytes → bytes → result unit * T.

(** ** The monad of methods: state passing with exceptions *)

Definition M (T A : Type) : Type := world T → result A * world T.

#[global] Instance M_ret {T} : MRet (M T) := λ A a w, (Ok a, w).

#[global] Instance M_bind {T} : MBind (M T) := λ A B f m w,
  match m w with
  | (Ok a, w') => f a w'
  | (Raise e, w') => (Raise e, w')
  end.

Definition record {T} (c : call) (w : world T) : world T :=
  World (this w) (wire w) (history w ++ [c]).

Section Primitives.
Context `{Codec} {T : Type} `{Transport T}.

(** Reading an attribute of [self]. *)
Definition self_attr {A} (f : ProtocolInstance → A) : M T A :=
  λ w, (Ok (f (this w)), w).

(** [C(self.cmd_id_offset)] *)
Definition new (C : Command) : M T Cmd :=
  offset ← self_attr cmd_id_offset; mret (new_cmd C offset).

(** [self.logger.debug(msg, arg)] *)
Definition logger_debug (logger msg : string) (arg : pyval) : M T unit :=
  λ w, (Ok (), record (LogDebug logger msg arg) w).

(** [cmd.encode(data)] *)
Definition encode (cmd : Cmd) (data : pyval) : M T (bytes * bytes) :=
  λ w, (cmd_encode cmd data, record (Encode cmd data) w).

(** [self.send(header, body)] *)
Definition send (header body : bytes) : M T unit :=
  λ w, let w' := record (Send header body) w in
       let r := peer_send (wire w') header body in
       (r.1, World (this w') r.2 (history w')).
End Primitives.

(** ** class ETHProtocol(Protocol) *)

Module ETHProtocol.

Definition name : string := "eth".
Definition version : Z := 63.
Definition _commands : list Command :=
  [Status; NewBlockHashes; Transactions; GetBlockHeaders; BlockHeaders;
   GetBlockBodies; BlockBodies; NewBlock; GetNodeData; NodeData;
   GetReceipts; Receipts].
Definition cmd_length : Z := 17.
Definition logger : string := "p2p.eth.ETHProtocol".

Section Methods.
Context `{Codec} {T : Type} `{Transport T}.

Definition send_handshake (head_info : ChainInfo.t) : M T unit :=
  nid ← self_attr (network_id ∘ peer);
  let resp := dict [
    ("protocol_version", PyInt version);
    ("network_id", PyInt nid);
    ("td", ChainInfo.total_difficulty head_info);
    ("best_hash", ChainInfo.block_hash head_info);
    ("genesis_hash", ChainInfo.genesis_hash head_info)] in
  cmd ← new Status;
  logger_debug logger "Sending ETH/Status msg: %s" (PyDict resp);;
  '(header, body) ← encode cmd (PyDict resp);
  send header body.

(** *** Node Data *)

Definition _send_get_node_data (node_hashes : pyval) : M T unit :=
  cmd ← new GetNodeData;
  '(header, body) ← encode cmd node_hashes;
  send header body.

Definition send_get_node_data (request : NodeDataRequest.t) : M T unit :=
  _send_get_node_data (NodeDataRequest.node_hashes request).

Definition send_node_data (nodes : pyval) : M T unit :=
  cmd ← new NodeData;
  '(header, body) ← encode cmd nodes;
  send header body.

(** *** Block Headers *)

Definition _send_get_block_headers
    (block_number_or_hash max_headers skip reverse : pyval) : M T unit :=
  cmd ← new GetBlockHeaders;
  let data := dict [
    ("block_number_or_hash", block_number_or_hash);
    ("max_headers", max_headers);
    ("skip", skip);
    ("reverse", reverse)] in
  '(header, body) ← encode cmd (PyDict data);
  send header body.

Definition send_get_block_headers (request : HeaderRequest.t) : M T unit :=
  _send_get_block_headers
    (HeaderRequest.block_number_or_hash request)
    (HeaderRequest.max_headers request)
    (HeaderRequest.skip request)
    (HeaderRequest.reverse request).

Definition send_block_headers (headers : pyval) : M T unit :=
  cmd ← new BlockHeaders;
  '(header, body) ← encode cmd headers;
  send header body.

(** *** Block Bodies *)

Definition _send_get_block_bodies (block_hashes : pyval) : M T unit :=
  cmd ← new GetBlockBodies;
  '(header, body) ← encode cmd block_hashes;
  send header body.

Definition send_get_block_bodies (request : BlockBodiesRequest.t) : M T unit :=
  _send_get_block_bodies (BlockBodiesRequest.block_hashes request).

Definition send_block_bodies (blocks : pyval) : M T unit :=
  cmd ← new BlockBodies;
  '(header, body) ← encode cmd blocks;
  send header body.

(** *** Receipts *)

Definition _send_get_receipts (block_hashes : pyval) : M T unit :=
  cmd ← new GetReceipts;
  '(header, body) ← encode cmd block_hashes;
  send header body.

Definition send_get_receipts (request : ReceiptsRequest.t) : M T unit :=
  _send_get_receipts (ReceiptsRequest.block_hashes request).

Definition send_receipts (receipts : pyval) : M T unit :=
  cmd ← new Receipts;
  '(header, body) ← encode cmd receipts;
  send header body.

(** *** Transactions *)

Definition send_transactions (transactions : pyval) : M T unit :=
  cmd ← new Transactions;
  '(header, body) ← encode cmd transactions;
  send header body.

End Methods.
End ETHProtocol.

(** ** Every method of the class, with its argument *)

Inductive method :=
| m_send_handshake (head_info : ChainInfo.t)
| m_send_get_node_data (request : NodeDataRequest.t)
| m__send_get_node_data (node_hashes : pyval)
| m_send_node_data (nodes : pyval)
| m_send_get_block_headers (request : HeaderRequest.t)
| m__send_get_block_headers (block_number_or_hash max_headers skip reverse : pyval)
| m_send_block_headers (headers : pyval)
| m_send_get_block_bodies (request : BlockBodiesRequest.t)
| m__send_get_block_bodies (block_hashes : pyval)
| m_send_block_bodies (blocks : pyval)
| m_send_get_receipts (request : ReceiptsRequest.t)
| m__send_get_receipts (block_hashes : pyval)
| m_send_receipts (receipts : pyval)
| m_send_transactions (transactions : pyval).

Definition invoke `{Codec} {T} `{Transport T} (m : method) : M T unit :=
  match m with
  | m_send_handshake head_info => ETHProtocol.send_handshake head_info
  | m_send_get_node_data request => ETHProtocol.send_get_node_data request
  | m__send_get_node_data node_hashes => ETHProtocol._send_get_node_data node_hashes
  | m_send_node_data nodes => ETHProtocol.send_node_data nodes
  | m_send_get_block_headers request => ETHProtocol.send_get_block_headers request
  | m__send_get_block_headers b m s r => ETHProtocol._send_get_block_headers b m s r
  | m_send_block_headers headers => ETHProtocol.send_block_headers headers
  | m_send_get_block_bodies request => ETHProtocol.send_get_block_bodies request
  | m__send_get_block_bodies block_hashes => ETHProtocol._send_get_block_bodies block_hashes
  | m_send_block_bodies blocks => ETHProtocol.send_block_bodies blocks
  | m_send_get_receipts request => ETHProtocol.send_get_receipts request
  | m__send_get_receipts block_hashes => ETHProtocol._send_get_receipts block_hashes
  | m_send_receipts receipts => ETHProtocol.send_receipts receipts
  | m_send_transactions transactions => ETHProtocol.send_transactions transactions
  end.

(** ** Observing one call of a method *)

(** The calls a computation adds to the history when started in [w]. *)
Definition emitted {T A} (m : M T A) (w : world T) : list call :=
  drop (length (history w)) (history (m w).2).

(** The (command, payload) pairs handed to the codec. *)
Definition encodings (cs : list call) : list (Cmd * pyval) :=
  omap (λ c, match c with Encode cmd data => Some (cmd, data) | _ => None end) cs.

(** The (header, body) frames handed to the transport. *)
Definition frames (cs : list call) : list (bytes * bytes) :=
  omap (λ c, match c with Send header body => Some (header, body) | _ => None end) cs.

(** The frame a codec result gives rise to: one on success, none on error. *)
Definition frame_of (r : result (bytes * bytes)) : list (bytes * bytes) :=
  match r with Ok hb => [hb] | Raise _ => [] end.

(** Handing frames to the transport, one [self.send] each. *)
Definition sends (fs : list (bytes * bytes)) : list call :=
  (λ hb, Send hb.1 hb.2) <$> fs.

(** ** What each method is expected to do

    The three tables below follow the description of the senders, not
    their code: the command a method resolves, the payload it hands to
    the codec and what it logs first.  [deliver] is the run they
    describe; [invoke_deliver] shows the code agrees. *)

Definition command_of (m : method) : Command :=
  match m with
  | m_send_handshake _ => Status
  | m_send_get_node_data _ | m__send_get_node_data _ => GetNodeData
  | m_send_node_data _ => NodeData
  | m_send_get_block_headers _ | m__send_get_block_headers _ _ _ _ => GetBlockHeaders
  | m_send_block_headers _ => BlockHeaders
  | m_send_get_block_bodies _ | m__send_get_block_bodies _ => GetBlockBodies
  | m_send_block_bodies _ => BlockBodies
  | m_send_get_receipts _ | m__send_get_receipts _ => GetReceipts
  | m_send_receipts _ => Receipts
  | m_send_transactions _ => Transactions
  end.

Definition status_payload (self : ProtocolInstance) (head_info : ChainInfo.t) : pyval :=
  PyDict (dict [
    ("protocol_version", PyInt 63);
    ("network_id", PyInt (network_id (peer self)));
    ("td", ChainInfo.total_difficulty head_info);
    ("best_hash", ChainInfo.block_hash head_info);
    ("genesis_hash", ChainInfo.genesis_hash head_info)]).

Definition headers_payload (block_number_or_hash max_headers skip reverse : pyval) : pyval :=
  PyDict (dict [
    ("block_number_or_hash", block_number_or_hash);
    ("max_headers", max_headers);
    ("skip", skip);
    ("reverse", reverse)]).

Definition payload_of (self : ProtocolInstance) (m : method) : pyval :=
  match m with
  | m_send_handshake head_info => status_payload self head_info
  | m_send_get_node_data request => NodeDataRequest.node_hashes request
  | m_send_get_block_headers request =>
      headers_payload
        (HeaderRequest.block_number_or_hash request) (HeaderRequest.max_headers request)
        (HeaderRequest.skip request) (HeaderRequest.reverse request)
  | m__send_get_block_headers b n s r => headers_payload b n s r
  | m_send_get_block_bodies request => BlockBodiesRequest.block_hashes request
  | m_send_get_receipts request => ReceiptsRequest.block_hashes request
  | m__send_get_node_data xs | m_send_node_data xs | m_send_block_headers xs
  | m__send_get_block_bodies xs | m_send_block_bodies xs | m__send_get_receipts xs
  | m_send_receipts xs | m_send_transactions xs => xs
  end.

Definition prelude_of (self : ProtocolInstance) (m : method) : list call :=
  match m with
  | m_send_handshake head_info =>
      [LogDebug "p2p.eth.ETHProtocol" "Sending ETH/Status msg: %s" (status_payload self head_info)]
  | _ => []
  end.

Definition deliver `{Codec} {T} `{Transport T}
    (pre : list call) (C : Command) (data : pyval) : M T unit :=
  λ w,
    let cmd := new_cmd C (cmd_id_offset (this w)) in
    let h := history w ++ pre ++ [Encode cmd data] in
    match cmd_encode cmd data with
    | Raise e => (Raise e, World (this w) (wire w) h)
    | Ok (header, body) =>
        let r := peer_send (wire w) header body in
        (r.1, World (this w) r.2 (h ++ [Send header body]))
    end.

(** ** Calls in sequence *)

(** The (logger, message, argument) records handed to the logger. *)
Definition logs (cs : list call) : list (string * string * pyval) :=
  omap (λ c, match c with LogDebug l msg arg => Some (l, msg, arg) | _ => None end) cs.

(** A caller invoking methods one after another, as consecutive
    statements do: an exception raised by one call ends the sequence. *)
Fixpoint invoke_all `{Codec} {T} `{Transport T} (ms : list method) : M T unit :=
  match ms with
  | [] => mret ()
  | m :: ms' => invoke m;; invoke_all ms'
  end.

(** The encode call each method of a sequence is expected to make on the
    instance [self]. *)
Definition expected (self : ProtocolInstance) (ms : list method) : list (Cmd * pyval) :=
  (λ m, (new_cmd (command_of m) (cmd_id_offset self), payload_of self m)) <$> ms.

(** ** A loopback peer, for running the model

    A connection that collects the frames written to it while it is open
    and refuses them once closed, and a stub codec that accepts mappings
    and sequences and rejects every other payload. *)

Module Loopback.
Record conn := { is_open : bool; written : list (bytes * bytes) }.

#[export] Instance transport : Transport conn := λ c header body,
  if is_open c
  then (Ok (), {| is_open := true; written := written c ++ [(header, body)] |})
  else (Raise (PyExc "PeerConnectionLost" "connection closed"), c).

#[export] Instance codec : Codec := λ cmd data,
  match data with
  | PyDict _ | PyTuple _ | PyList _ => Ok ([Byte.x80], [Byte.xc0])
  | _ => Raise (PyExc "EncodingError" "payload is neither mapping nor sequence")
  end.

Definition session (network offset : Z) (open : bool) : world conn :=
  World {| peer := {| network_id := network |}; cmd_id_offset := offset |}
        {| is_open := open; written := [] |} [].

(** Three block hashes, a genesis hash and a chain head to send. *)
Definition H1 : pyval := PyBytes (replicate 32 Byte.x11).
Definition H2 : pyval := PyBytes (replicate 32 Byte.x22).
Definition H3 : pyval := PyBytes (replicate 32 Byte.x33).
Definition G1 : pyval := PyBytes (replicate 32 Byte.xaa).

Definition head : ChainInfo.t := ChainInfo.Build (PyInt 100) H1 G1.
End Loopback.

(** * Properties *)

Create HintDb eth discriminated.
#[local] Hint Unfold
  ETHProtocol.send_handshake
  ETHProtocol.send_get_node_data ETHProtocol._send_get_node_data
  ETHProtocol.send_node_data
  ETHProtocol.send_get_block_headers ETHProtocol._send_get_block_headers
  ETHProtocol.send_block_headers
  ETHProtocol.send_get_block_bodies ETHProtocol._send_get_block_bodies
  ETHProtocol.send_block_bodies
  ETHProtocol.send_get_receipts ETHProtocol._send_get_receipts
  ETHProtocol.send_receipts ETHProtocol.send_transactions
  ETHProtocol.version ETHProtocol.logger
  invoke deliver prelude_of command_of payload_of status_payload headers_payload
  new self_attr logger_debug encode send record : eth.

(** Lookups in, and equations between, dict displays with literal keys. *)
Ltac dict_lookup := unfold dict; cbn [foldl fst snd]; by simplify_map_eq.
Ltac dict_eq :=
  unfold dict; cbn [foldl fst snd list_to_map foldr uncurry];
  apply map_eq; intros ?; rewrite !lookup_insert; repeat case_decide;
  first [reflexivity | congruence].

(** Unfold a method down to the monad's operations and run them. *)
Ltac run_method :=
  autounfold with eth; unfold mbind, M_bind, mret, M_ret; cbn -[dict].

Section Correctness.
Context `{Codec} {T : Type} `{Transport T}.
Implicit Types (m : method) (w : world T) (self : ProtocolInstance).

Lemma invoke_deliver m w :
  invoke m w = deliver (prelude_of (this w) m) (command_of m) (payload_of (this w) m) w.
Proof.
  destruct w as [self t h].
  destruct m; run_method;
    destruct (cmd_encode _ _) as [[header body]|e]; cbn -[dict];
    rewrite <- ?app_assoc; reflexivity.
Qed.

Lemma emitted_invoke m w :
  emitted (invoke m) w =
  emitted (deliver (prelude_of (this w) m) (command_of m) (payload_of (this w) m)) w.
Proof. unfold emitted. by rewrite invoke_deliver. Qed.

(** *** The run [deliver] describes *)

Lemma deliver_this pre C data w : this (deliver pre C data w).2 = this w.
Proof. unfold deliver. by destruct (cmd_encode _ _) as [[??]|?]. Qed.

Lemma deliver_emitted pre C data w :
  let cmd := new_cmd C (cmd_id_offset (this w)) in
  emitted (deliver pre C data) w =
  pre ++ Encode cmd data :: sends (frame_of (cmd_encode cmd data)).
Proof.
  unfold emitted, deliver.
  destruct (cmd_encode _ _) as [[header body]|e]; cbn;
    rewrite <- ?app_assoc, drop_app_length; by rewrite <- ?app_assoc.
Qed.

Lemma deliver_outcome pre C data w :
  let cmd := new_cmd C (cmd_id_offset (this w)) in
  match cmd_encode cmd data with
  | Raise e => (deliver pre C data w).1 = Raise e ∧ wire (deliver pre C data w).2 = wire w
  | Ok (header, body) =>
      (deliver pre C data w).1 = (peer_send (wire w) header body).1 ∧
      wire (deliver pre C data w).2 = (peer_send (wire w) header body).2
  end.
Proof. unfold deliver. by destruct (cmd_encode _ _) as [[??]|?]. Qed.

(** *** Reading the history *)

Lemma encodings_sends fs : encodings (sends fs) = [].
Proof. induction fs as [|[??] fs IH]; [done|]. apply IH. Qed.

Lemma frames_sends fs : frames (sends fs) = fs.
Proof. induction fs as [|[??] fs IH]; [done|]. cbn. f_equal. apply IH. Qed.

Lemma encodings_prelude self m : encodings (prelude_of self m) = [].
Proof. by destruct m. Qed.

Lemma frames_prelude self m : frames (prelude_of self m) = [].
Proof. by destruct m. Qed.

Lemma encodings_invoke m w :
  encodings (emitted (invoke m) w) =
  [(new_cmd (command_of m) (cmd_id_offset (this w)), payload_of (this w) m)].
Proof.
  rewrite emitted_invoke, deliver_emitted. unfold encodings.
  rewrite omap_app. fold encodings.
  rewrite encodings_prelude. cbn. fold encodings. by rewrite encodings_sends.
Qed.

Lemma frames_invoke m w :
  frames (emitted (invoke m) w) =
  frame_of (cmd_encode (new_cmd (command_of m) (cmd_id_offset (this w)))
                       (payload_of (this w) m)).
Proof.
  rewrite emitted_invoke, deliver_emitted. unfold frames.
  rewrite omap_app. fold frames.
  rewrite frames_prelude. cbn. fold frames. by rewrite frames_sends.
Qed.

(** *** Dict displays *)

Lemma status_payload_dom self head_info (resp : gmap string pyval) :
  status_payload self head_info = PyDict resp →
  dom resp = {["protocol_version"; "network_id"; "td"; "best_hash"; "genesis_hash"]}.
Proof.
  intros [= <-]. unfold dict. cbn.
  rewrite !dom_insert_L, dom_empty_L. set_solver.
Qed.

Lemma headers_payload_dom b n s r (data : gmap string pyval) :
  headers_payload b n s r = PyDict data →
  dom data = {["block_number_or_hash"; "max_headers"; "skip"; "reverse"]}.
Proof.
  intros [= <-]. unfold dict. cbn.
  rewrite !dom_insert_L, dom_empty_L. set_solver.
Qed.
End Correctness.

(** ** The command table *)

(** C1: the command table of the eth sub-protocol, version 63, holds
    exactly twelve commands, in the order Status, NewBlockHashes,
    Transactions, GetBlockHeaders, BlockHeaders, GetBlockBodies,
    BlockBodies, NewBlock, GetNodeData, NodeData, GetReceipts, Receipts. *)
Theorem eth63_command_table :
  ETHProtocol.name = "eth" ∧ ETHProtocol.version = 63%Z ∧
  length ETHProtocol._commands = 12 ∧
  ETHProtocol._commands =
    [Status; NewBlockHashes; Transactions; GetBlockHeaders; BlockHeaders;
     GetBlockBodies; BlockBodies; NewBlock; GetNodeData; NodeData;
     GetReceipts; Receipts].
Proof. repeat split. Qed.

(** C2, as stated, fails: the declared command length is not the number
    of entries of the command table. *)
Lemma cmd_length_is_not_table_count :
  ETHProtocol.cmd_length ≠ Z.of_nat (length ETHProtocol._commands).
Proof. unfold ETHProtocol.cmd_length. cbn. lia. Qed.

(** C2, amended: the declared command length is the constant 17; the
    twelve entries of the command table fit within it. *)
Theorem cmd_length_covers_table :
  ETHProtocol.cmd_length = 17%Z ∧
  length ETHProtocol._commands = 12 ∧
  (Z.of_nat (length ETHProtocol._commands) ≤ ETHProtocol.cmd_length)%Z.
Proof. unfold ETHProtocol.cmd_length. cbn. repeat split. lia. Qed.

Section Senders.
Context `{Codec} {T : Type} `{Transport T}.
Implicit Types (m : method) (w : world T) (self : ProtocolInstance).

(** ** Handshake *)

(** C3: for every ChainInfo, [send_handshake] builds a mapping with
    exactly the keys protocol_version, network_id, td, best_hash and
    genesis_hash, bound to the version constant 63, the peer's network
    id and the ChainInfo's total difficulty, best-block hash and genesis
    hash; that mapping is the one payload encoded, with the Status
    command at the instance's offset, and the frame the codec returns
    is the one frame sent. *)
Theorem send_handshake_status (head_info : ChainInfo.t) w :
  ∃ resp : gmap string pyval,
    dom resp = {["protocol_version"; "network_id"; "td"; "best_hash"; "genesis_hash"]} ∧
    resp !! "protocol_version" = Some (PyInt 63) ∧
    resp !! "network_id" = Some (PyInt (network_id (peer (this w)))) ∧
    resp !! "td" = Some (ChainInfo.total_difficulty head_info) ∧
    resp !! "best_hash" = Some (ChainInfo.block_hash head_info) ∧
    resp !! "genesis_hash" = Some (ChainInfo.genesis_hash head_info) ∧
    let cmd := new_cmd Status (cmd_id_offset (this w)) in
    let run := emitted (ETHProtocol.send_handshake head_info) w in
    encodings run = [(cmd, PyDict resp)] ∧
    frames run = frame_of (cmd_encode cmd (PyDict resp)).
Proof.
  exists (dict [
    ("protocol_version", PyInt 63);
    ("network_id", PyInt (network_id (peer (this w))));
    ("td", ChainInfo.total_difficulty head_info);
    ("best_hash", ChainInfo.block_hash head_info);
    ("genesis_hash", ChainInfo.genesis_hash head_info)]).
  split; [by apply (status_payload_dom (this w) head_info)|].
  do 5 (split; [dict_lookup|]).
  cbv zeta.
  change (ETHProtocol.send_handshake head_info) with (invoke (m_send_handshake head_info)).
  by rewrite encodings_invoke, frames_invoke.
Qed.

(** ** Requests *)

(** C4: for every HeaderRequest, [send_get_block_headers] encodes, with
    the GetBlockHeaders command, a mapping with exactly the keys
    block_number_or_hash, max_headers, skip and reverse, each bound to
    the descriptor's field of that name, unchanged; a request from block
    42 with max_headers 5, skip 0 and reverse false gives the payload
    {block_number_or_hash: 42, max_headers: 5, skip: 0, reverse: false}. *)
Theorem send_get_block_headers_payload (request : HeaderRequest.t) w :
  let cmd := new_cmd GetBlockHeaders (cmd_id_offset (this w)) in
  (∃ data : gmap string pyval,
    dom data = {["block_number_or_hash"; "max_headers"; "skip"; "reverse"]} ∧
    data !! "block_number_or_hash" = Some (HeaderRequest.block_number_or_hash request) ∧
    data !! "max_headers" = Some (HeaderRequest.max_headers request) ∧
    data !! "skip" = Some (HeaderRequest.skip request) ∧
    data !! "reverse" = Some (HeaderRequest.reverse request) ∧
    let run := emitted (ETHProtocol.send_get_block_headers request) w in
    encodings run = [(cmd, PyDict data)] ∧
    frames run = frame_of (cmd_encode cmd (PyDict data))) ∧
  encodings (emitted (ETHProtocol.send_get_block_headers
      (HeaderRequest.Build (PyInt 42) (PyInt 5) (PyInt 0) (PyBool false))) w) =
    [(cmd, PyDict (list_to_map [
        ("block_number_or_hash", PyInt 42); ("max_headers", PyInt 5);
        ("skip", PyInt 0); ("reverse", PyBool false)]))].
Proof.
  split.
  - exists (dict [
      ("block_number_or_hash", HeaderRequest.block_number_or_hash request);
      ("max_headers", HeaderRequest.max_headers request);
      ("skip", HeaderRequest.skip request);
      ("reverse", HeaderRequest.reverse request)]).
    split; [by eapply headers_payload_dom|].
    do 4 (split; [dict_lookup|]).
    cbv zeta.
    change (ETHProtocol.send_get_block_headers request)
      with (invoke (m_send_get_block_headers request)).
    by rewrite encodings_invoke, frames_invoke.
  - change (ETHProtocol.send_get_block_headers ?r) with (invoke (m_send_get_block_headers r)).
    rewrite encodings_invoke.
    cbn [payload_of command_of]. unfold headers_payload. cbn -[dict list_to_map].
    apply (f_equal (λ d, [(_, PyDict d)])). dict_eq.
Qed.

(** C5: for every sequence of hashes carried by a BlockBodiesRequest, a
    ReceiptsRequest or a NodeDataRequest, the one payload handed to the
    encoder of GetBlockBodies, GetReceipts or GetNodeData is that very
    sequence: same elements, same order, nothing added or dropped. *)
Theorem get_requests_keep_hash_sequence (hashes : list pyval) w :
  let off := cmd_id_offset (this w) in
  encodings (emitted (ETHProtocol.send_get_block_bodies
                        (BlockBodiesRequest.Build (PyTuple hashes))) w) =
    [(new_cmd GetBlockBodies off, PyTuple hashes)] ∧
  encodings (emitted (ETHProtocol.send_get_receipts
                        (ReceiptsRequest.Build (PyTuple hashes))) w) =
    [(new_cmd GetReceipts off, PyTuple hashes)] ∧
  encodings (emitted (ETHProtocol.send_get_node_data
                        (NodeDataRequest.Build (PyTuple hashes))) w) =
    [(new_cmd GetNodeData off, PyTuple hashes)].
Proof.
  cbv zeta.
  change (ETHProtocol.send_get_block_bodies ?r) with (invoke (m_send_get_block_bodies r)).
  change (ETHProtocol.send_get_receipts ?r) with (invoke (m_send_get_receipts r)).
  change (ETHProtocol.send_get_node_data ?r) with (invoke (m_send_get_node_data r)).
  by rewrite !encodings_invoke.
Qed.

(** ** Responses and announcements *)

(** C6: [send_block_headers], [send_block_bodies], [send_receipts],
    [send_node_data] and [send_transactions] each make exactly these
    calls: encode the argument, as given, with the method's command at
    the instance's offset; then, when the codec returned a frame, send
    that frame. *)
Theorem response_senders_pass_through (xs : pyval) w :
  let run C := Encode (new_cmd C (cmd_id_offset (this w))) xs ::
               sends (frame_of (cmd_encode (new_cmd C (cmd_id_offset (this w))) xs)) in
  emitted (ETHProtocol.send_block_headers xs) w = run BlockHeaders ∧
  emitted (ETHProtocol.send_block_bodies xs) w = run BlockBodies ∧
  emitted (ETHProtocol.send_receipts xs) w = run Receipts ∧
  emitted (ETHProtocol.send_node_data xs) w = run NodeData ∧
  emitted (ETHProtocol.send_transactions xs) w = run Transactions.
Proof.
  cbv zeta.
  change (ETHProtocol.send_block_headers xs) with (invoke (m_send_block_headers xs)).
  change (ETHProtocol.send_block_bodies xs) with (invoke (m_send_block_bodies xs)).
  change (ETHProtocol.send_receipts xs) with (invoke (m_send_receipts xs)).
  change (ETHProtocol.send_node_data xs) with (invoke (m_send_node_data xs)).
  change (ETHProtocol.send_transactions xs) with (invoke (m_send_transactions xs)).
  by rewrite !emitted_invoke, !deliver_emitted.
Qed.
End Senders.

Section Discipline.
Context `{Codec} {T : Type} `{Transport T}.
Implicit Types (m : method) (w : world T) (self : ProtocolInstance).

(** ** Determinism, frame and error discipline *)

(** C7: every sender is deterministic in its argument and the protocol
    instance.  Called on the same instance with the same argument, from
    whatever connection state and history, it makes the same calls: it
    encodes with the same command object, fixed by the method and the
    instance's offset, and hands the same frame to the transport; so a
    second call, made right after the first, repeats the first. *)
Theorem senders_deterministic m self (t1 t2 : T) (h1 h2 : list call) :
  let w1 := World self t1 h1 in
  emitted (invoke m) w1 = emitted (invoke m) (World self t2 h2) ∧
  emitted (invoke m) (invoke m w1).2 = emitted (invoke m) w1 ∧
  (encodings (emitted (invoke m) w1)).*1 = [new_cmd (command_of m) (cmd_id_offset self)].
Proof.
  cbv zeta. split_and!.
  - by rewrite !emitted_invoke, !deliver_emitted.
  - rewrite !emitted_invoke, !deliver_emitted.
    by rewrite invoke_deliver, deliver_this.
  - by rewrite encodings_invoke.
Qed.

(** C8: no method changes the protocol instance (peer, network id,
    command-ID offset): whatever the outcome of the call, a result or
    an exception, the instance after it is the instance before it. *)
Theorem senders_leave_instance m w : this (invoke m w).2 = this w.
Proof. rewrite invoke_deliver. apply deliver_this. Qed.

(** C9: no method validates its input or handles an error.  On every
    input the codec is called exactly once; when it raises, the method
    raises that exception and nothing is sent; when it returns a frame,
    that frame is sent exactly once and the outcome of the method is the
    outcome of the transport's send, its exception included. *)
Theorem senders_propagate_errors m w :
  let cmd := new_cmd (command_of m) (cmd_id_offset (this w)) in
  let data := payload_of (this w) m in
  encodings (emitted (invoke m) w) = [(cmd, data)] ∧
  frames (emitted (invoke m) w) = frame_of (cmd_encode cmd data) ∧
  match cmd_encode cmd data with
  | Raise e =>
      (invoke m w).1 = Raise e ∧ wire (invoke m w).2 = wire w
  | Ok (header, body) =>
      (invoke m w).1 = (peer_send (wire w) header body).1 ∧
      wire (invoke m w).2 = (peer_send (wire w) header body).2
  end.
Proof.
  cbv zeta.
  split; [apply encodings_invoke|]. split; [apply frames_invoke|].
  rewrite invoke_deliver. apply deliver_outcome.
Qed.

(** C10: the public entry point of each request family does nothing but
    forward the descriptor's fields: run in any world, it gives the
    result and the world of the internal constructor applied to those
    fields. *)
Theorem public_senders_forward_fields w :
  (∀ request : NodeDataRequest.t,
    ETHProtocol.send_get_node_data request w =
    ETHProtocol._send_get_node_data (NodeDataRequest.node_hashes request) w) ∧
  (∀ request : HeaderRequest.t,
    ETHProtocol.send_get_block_headers request w =
    ETHProtocol._send_get_block_headers
      (HeaderRequest.block_number_or_hash request) (HeaderRequest.max_headers request)
      (HeaderRequest.skip request) (HeaderRequest.reverse request) w) ∧
  (∀ request : BlockBodiesRequest.t,
    ETHProtocol.send_get_block_bodies request w =
    ETHProtocol._send_get_block_bodies (BlockBodiesRequest.block_hashes request) w) ∧
  (∀ request : ReceiptsRequest.t,
    ETHProtocol.send_get_receipts request w =
    ETHProtocol._send_get_receipts (ReceiptsRequest.block_hashes request) w).
Proof.
  split_and!; intros request.
  - change (invoke (m_send_get_node_data request) w =
            invoke (m__send_get_node_data (NodeDataRequest.node_hashes request)) w).
    by rewrite !invoke_deliver.
  - change (invoke (m_send_get_block_headers request) w =
            invoke (m__send_get_block_headers
              (HeaderRequest.block_number_or_hash request) (HeaderRequest.max_headers request)
              (HeaderRequest.skip request) (HeaderRequest.reverse request)) w).
    by rewrite !invoke_deliver.
  - change (invoke (m_send_get_block_bodies request) w =
            invoke (m__send_get_block_bodies (BlockBodiesRequest.block_hashes request)) w).
    by rewrite !invoke_deliver.
  - change (invoke (m_send_get_receipts request) w =
            invoke (m__send_get_receipts (ReceiptsRequest.block_hashes request)) w).
    by rewrite !invoke_deliver.
Qed.
End Discipline.

(** ** Logging, reach of the senders, and what they read of the instance *)

Section Reach.
Context `{Codec} {T : Type} `{Transport T}.
Implicit Types (m : method) (w : world T) (self : ProtocolInstance).

(** X1: [send_handshake] logs the mapping it is about to encode before it
    calls the codec: its calls are, in this order, one debug record
    carrying the payload, the encoding of that same payload with Status,
    and the sending of the codec's frame if there is one.  The record is
    written also when the codec then rejects the payload. *)
Theorem handshake_logs_then_encodes (head_info : ChainInfo.t) w :
  let cmd := new_cmd Status (cmd_id_offset (this w)) in
  let resp := status_payload (this w) head_info in
  emitted (ETHProtocol.send_handshake head_info) w =
    LogDebug "p2p.eth.ETHProtocol" "Sending ETH/Status msg: %s" resp ::
    Encode cmd resp :: sends (frame_of (cmd_encode cmd resp)).
Proof.
  cbv zeta.
  change (ETHProtocol.send_handshake head_info) with (invoke (m_send_handshake head_info)).
  by rewrite emitted_invoke, deliver_emitted.
Qed.

(** X2: the handshake is the only method that logs: it hands exactly one
    record to the logger, every other method none. *)
Theorem only_handshake_logs m w :
  logs (emitted (invoke m) w) =
    match m with
    | m_send_handshake head_info =>
        [("p2p.eth.ETHProtocol", "Sending ETH/Status msg: %s",
          status_payload (this w) head_info)]
    | _ => []
    end.
Proof.
  rewrite emitted_invoke, deliver_emitted. cbv zeta.
  assert (Hs : ∀ fs, logs (sends fs) = []).
  { induction fs as [|[??] fs IH]; [done|]. apply IH. }
  unfold logs. rewrite omap_app. fold logs. cbn. fold logs. rewrite Hs.
  by destruct m.
Qed.

(** X3: the commands the senders can resolve are exactly the entries of
    the command table other than NewBlockHashes and NewBlock: each such
    entry is encoded by some method, and no method encodes with anything
    else. *)
Theorem sendable_commands (C : Command) w :
  (∃ m, (encodings (emitted (invoke m) w)).*1 = [new_cmd C (cmd_id_offset (this w))])
  ↔ C ∈ ETHProtocol._commands ∧ C ≠ NewBlockHashes ∧ C ≠ NewBlock.
Proof.
  split.
  - intros [m Hm]. rewrite encodings_invoke in Hm. cbn in Hm.
    injection Hm as <-.
    split; [|by destruct m].
    unfold ETHProtocol._commands. destruct m; cbn; set_solver.
  - intros (_ & Hh & Hb).
    assert (∃ m, command_of m = C) as [m <-].
    { destruct C; try done.
      - by exists (m_send_handshake (ChainInfo.Build PyNone PyNone PyNone)).
      - by exists (m_send_transactions PyNone).
      - by exists (m__send_get_block_headers PyNone PyNone PyNone PyNone).
      - by exists (m_send_block_headers PyNone).
      - by exists (m__send_get_block_bodies PyNone).
      - by exists (m_send_block_bodies PyNone).
      - by exists (m__send_get_node_data PyNone).
      - by exists (m_send_node_data PyNone).
      - by exists (m__send_get_receipts PyNone).
      - by exists (m_send_receipts PyNone). }
    exists m. by rewrite encodings_invoke.
Qed.

(** X4: the command-ID offset of the instance reaches the codec only as
    the offset of the command object: the same call on two instances that
    differ in their offset alone encodes the same payload with the same
    command class, at the respective offset. *)
Theorem offset_only_in_command m (p : Peer) (o1 o2 : Z) (t1 t2 : T) (h1 h2 : list call) :
  let e1 := encodings (emitted (invoke m) (World (Build_ProtocolInstance p o1) t1 h1)) in
  let e2 := encodings (emitted (invoke m) (World (Build_ProtocolInstance p o2) t2 h2)) in
  e1.*2 = e2.*2 ∧
  cmd_class <$> e1.*1 = cmd_class <$> e2.*1 ∧
  cmd_offset <$> e1.*1 = [o1] ∧ cmd_offset <$> e2.*1 = [o2].
Proof.
  cbv zeta. rewrite !encodings_invoke. cbn.
  split_and!; by destruct m.
Qed.

End Reach.

(** ** Sequences of calls *)

Section Sessions.
Context `{Codec} {T : Type} `{Transport T}.
Implicit Types (m : method) (ms : list method) (w : world T).

Lemma this_invoke m w : this (invoke m w).2 = this w.
Proof. rewrite invoke_deliver. apply deliver_this. Qed.

Lemma history_invoke m w : history (invoke m w).2 = history w ++ emitted (invoke m) w.
Proof.
  rewrite emitted_invoke, deliver_emitted, invoke_deliver. unfold deliver. cbv zeta.
  destruct (cmd_encode _ _) as [[??]|?]; cbn; by rewrite <- ?app_assoc.
Qed.

Lemma invoke_all_cons m ms w :
  invoke_all (m :: ms) w =
  match (invoke m w).1 with
  | Ok _ => invoke_all ms (invoke m w).2
  | Raise e => (Raise e, (invoke m w).2)
  end.
Proof.
  change (invoke_all (m :: ms)) with (invoke m ≫= λ _, invoke_all ms).
  unfold mbind, M_bind. by destruct (invoke m w) as [[[]|?] ?].
Qed.

Lemma emitted_nil w : emitted (invoke_all []) w = [].
Proof. unfold emitted. cbn. apply drop_all. Qed.

Lemma history_invoke_all ms w :
  history (invoke_all ms w).2 = history w ++ emitted (invoke_all ms) w.
Proof.
  revert w. induction ms as [|m ms IH]; intros w.
  - by rewrite emitted_nil, app_nil_r.
  - unfold emitted. rewrite invoke_all_cons.
    destruct (invoke m w).1.
    + rewrite IH, history_invoke, <- app_assoc. by rewrite drop_app_length.
    + cbn. rewrite history_invoke. by rewrite drop_app_length.
Qed.

Lemma emitted_invoke_all_cons m ms w :
  emitted (invoke_all (m :: ms)) w =
  emitted (invoke m) w ++
  match (invoke m w).1 with
  | Ok _ => emitted (invoke_all ms) (invoke m w).2
  | Raise _ => []
  end.
Proof.
  unfold emitted at 1. rewrite invoke_all_cons.
  destruct (invoke m w).1.
  - rewrite history_invoke_all, history_invoke, <- app_assoc. by rewrite drop_app_length.
  - cbn. rewrite history_invoke. by rewrite drop_app_length, app_nil_r.
Qed.

Lemma encodings_app cs1 cs2 : encodings (cs1 ++ cs2) = encodings cs1 ++ encodings cs2.
Proof. apply omap_app. Qed.

Lemma frames_app cs1 cs2 : frames (cs1 ++ cs2) = frames cs1 ++ frames cs2.
Proof. apply omap_app. Qed.

Lemma expected_this w w' ms : this w' = this w → expected (this w') ms = expected (this w) ms.
Proof. by intros ->. Qed.

(** A call that returns was given a frame by the codec, and sent it. *)
Lemma invoke_ok_frame m w u :
  (invoke m w).1 = Ok u → length (frames (emitted (invoke m) w)) = 1.
Proof.
  rewrite frames_invoke, invoke_deliver. unfold deliver. cbv zeta.
  by destruct (cmd_encode _ _) as [[??]|?].
Qed.

(** X6: no sequence of calls changes the protocol instance: after any
    number of calls, whether the sequence ran to its end or was cut short
    by an exception, the instance is the one it started with. *)
Theorem session_keeps_instance ms w : this (invoke_all ms w).2 = this w.
Proof.
  revert w. induction ms as [|m ms IH]; intros w; [done|].
  rewrite invoke_all_cons. destruct (invoke m w).1.
  - by rewrite IH, this_invoke.
  - apply this_invoke.
Qed.


(** X8: when a sequence of calls returns, every method in it made its
    encode call, in call order, and exactly one frame per method was
    handed to the transport. *)
Theorem session_success_sends_all ms w :
  (invoke_all ms w).1 = Ok () →
  encodings (emitted (invoke_all ms) w) = expected (this w) ms ∧
  length (frames (emitted (invoke_all ms) w)) = length ms.
Proof.
  revert w. induction ms as [|m ms IH]; intros w Hok.
  - by rewrite emitted_nil.
  - rewrite invoke_all_cons in Hok.
    rewrite emitted_invoke_all_cons, encodings_app, frames_app, length_app.
    rewrite encodings_invoke.
    destruct (invoke m w).1 as [u|e] eqn:Hm; [|done].
    rewrite (invoke_ok_frame m w u Hm).
    destruct (IH _ Hok) as [-> ->].
    by rewrite (expected_this w) by apply this_invoke.
Qed.

(** X9: when a sequence of calls raises, it stopped at the call that
    raised: the methods before it returned, the exception is the one that
    call raised, the world is the one that call left, and the codec was
    called for the methods up to and including that call and for none
    after it. *)
Theorem session_stops_at_failure ms w e :
  (invoke_all ms w).1 = Raise e →
  ∃ ms1 m ms2,
    ms = ms1 ++ m :: ms2 ∧
    (invoke_all ms1 w).1 = Ok () ∧
    (invoke m (invoke_all ms1 w).2).1 = Raise e ∧
    (invoke_all ms w).2 = (invoke m (invoke_all ms1 w).2).2 ∧
    encodings (emitted (invoke_all ms) w) = expected (this w) (ms1 ++ [m]).
Proof.
  revert w. induction ms as [|m ms IH]; intros w Hraise; [done|].
  rewrite invoke_all_cons in Hraise.
  rewrite emitted_invoke_all_cons, encodings_app, encodings_invoke, invoke_all_cons.
  destruct (invoke m w).1 as [u|e0] eqn:Hm.
  - destruct (IH _ Hraise) as (ms1 & m' & ms2 & -> & Hok & Hm' & Hw & Henc).
    exists (m :: ms1), m', ms2.
    rewrite invoke_all_cons, Hm. split_and!; try done.
    rewrite Henc. by rewrite (expected_this w) by apply this_invoke.
  - exists [], m, ms. cbn in Hraise. injection Hraise as ->.
    change (invoke_all [] w) with (Ok (), w). cbn [fst snd].
    by rewrite Hm, app_nil_r.
Qed.
End Sessions.

(** The sequence theorems at work on the loopback peer: two calls on an
    open connection, one call on a closed one. *)
Lemma session_success_sends_all_witness :
  let ms := [m_send_block_headers (PyTuple [Loopback.H1]);
             m_send_get_node_data (NodeDataRequest.Build (PyTuple [Loopback.H2; Loopback.H3]))] in
  let w := Loopback.session 1 16 true in
  (@invoke_all Loopback.codec _ Loopback.transport ms w).1 = Ok () ∧
  encodings (emitted (@invoke_all Loopback.codec _ Loopback.transport ms) w) =
    expected (this w) ms ∧
  length (frames (emitted (@invoke_all Loopback.codec _ Loopback.transport ms) w)) = length ms.
Proof.
  cbv zeta. split; [reflexivity|].
  apply (@session_success_sends_all Loopback.codec _ Loopback.transport). reflexivity.
Defined.

Lemma session_stops_at_failure_witness :
  let ms := [m_send_transactions (PyList []); m_send_receipts (PyList [])] in
  let w := Loopback.session 1 16 false in
  let e := PyExc "PeerConnectionLost" "connection closed" in
  (@invoke_all Loopback.codec _ Loopback.transport ms w).1 = Raise e ∧
  ∃ ms1 m ms2,
    ms = ms1 ++ m :: ms2 ∧
    (@invoke_all Loopback.codec _ Loopback.transport ms1 w).1 = Ok () ∧
    (@invoke Loopback.codec _ Loopback.transport m
       (@invoke_all Loopback.codec _ Loopback.transport ms1 w).2).1 = Raise e ∧
    (@invoke_all Loopback.codec _ Loopback.transport ms w).2 =
      (@invoke Loopback.codec _ Loopback.transport m
         (@invoke_all Loopback.codec _ Loopback.transport ms1 w).2).2 ∧
    encodings (emitted (@invoke_all Loopback.codec _ Loopback.transport ms) w) =
      expected (this w) (ms1 ++ [m]).
Proof.
  cbv zeta. split; [reflexivity|].
  apply (@session_stops_at_failure Loopback.codec _ Loopback.transport). reflexivity.
Defined.

(** ** Runs on the loopback peer *)

Module Examples.
Import Loopback.

Example handshake_payload :
  encodings (emitted (ETHProtocol.send_handshake head) (session 1 16 true)) =
  [(new_cmd Status 16,
    PyDict (list_to_map [
      ("protocol_version", PyInt 63); ("network_id", PyInt 1); ("td", PyInt 100);
      ("best_hash", H1); ("genesis_hash", G1)]))].
Proof.
  change (ETHProtocol.send_handshake head) with (invoke (m_send_handshake head)).
  rewrite encodings_invoke.
  apply (f_equal (λ d, [(_, PyDict d)])). dict_eq.
Qed.

Example handshake_written :
  let out := ETHProtocol.send_handshake head (session 1 16 true) in
  out.1 = Ok () ∧ written (wire out.2) = [([Byte.x80], [Byte.xc0])].
Proof. by vm_compute. Qed.

Example handshake_on_closed_connection :
  let out := ETHProtocol.send_handshake head (session 1 16 false) in
  out.1 = Raise (PyExc "PeerConnectionLost" "connection closed") ∧
  written (wire out.2) = [] ∧ this out.2 = this (session 1 16 false).
Proof. by vm_compute. Qed.

Example block_bodies_request_in_order :
  emitted (ETHProtocol.send_get_block_bodies
             (BlockBodiesRequest.Build (PyTuple [H1; H2; H3]))) (session 1 16 true) =
  [Encode (new_cmd GetBlockBodies 16) (PyTuple [H1; H2; H3]);
   Send [Byte.x80] [Byte.xc0]].
Proof. by vm_compute. Qed.

Example codec_error_reaches_caller :
  let out := ETHProtocol.send_block_headers (PyInt 7) (session 1 16 true) in
  out.1 = Raise (PyExc "EncodingError" "payload is neither mapping nor sequence") ∧
  written (wire out.2) = [] ∧
  history out.2 = [Encode (new_cmd BlockHeaders 16) (PyInt 7)].
Proof. by vm_compute. Qed.
End Examples.
